(** * The relay core of the GPT-OSS API server

    A shallow embedding of [chat_completions] (main.py) and of the
    serverless [handler] (runpod_handler.py), with the properties of the
    relay stated over it.

    Python values are modelled by the types the pydantic models give
    them.  An upstream call is an effect: every function that may reach
    the backend runs in a small monad carrying the list of calls made so
    far and the exception, if any, that ended it.  Calls to [logger] only
    write to the process log and are left out. *)

From Stdlib Require Import ZArith List String Ascii Bool Lia.
From Stdlib Require Import Floats.SpecFloat Numbers.DecimalString.
Import ListNotations.

Local Open Scope string_scope.
Local Open Scope Z_scope.

(** ** Python values *)

(** A Python [float] is an IEEE 754 binary64 number. *)
Definition float : Set := spec_float.

(** What [json=] serialises and [Response.json()] returns. *)
#[local] Set Warnings "-register-all".
Inductive Json : Type :=
| JNull
| JBool (b : bool)
| JInt (z : Z)
| JFloat (f : float)
| JStr (s : string)
| JArr (items : list Json)
| JObj (fields : list (string * Json)).

(** A [dict] with string keys, in insertion order. *)
Definition dict (V : Type) : Type := list (string * V).

Fixpoint dict_get {V : Type} (d : dict V) (key : string) : option V :=
  match d with
  | [] => None
  | (k, v) :: rest => if (k =? key)%string then Some v else dict_get rest key
  end.

(** The field [key] of a JSON object. *)
Definition field (j : Json) (key : string) : option Json :=
  match j with
  | JObj fields => dict_get fields key
  | _ => None
  end.

(** [bool(x)]: zero, the empty string, [False] and [None] are falsy. *)
Definition truthy_int (z : Z) : bool := negb (z =? 0).

Definition truthy_float (f : float) : bool :=
  match f with
  | S754_zero _ => false
  | _ => true
  end.

Definition truthy_str (s : string) : bool := negb (s =? "")%string.

Definition truthy_opt {A : Type} (truthy : A -> bool) (x : option A) : bool :=
  match x with
  | Some v => truthy v
  | None => false
  end.

(** [x or y] where [x] may be [None]: [x] when it is truthy, else [y]. *)
Definition py_or {A : Type} (truthy : A -> bool) (x : option A) (y : A) : A :=
  match x with
  | Some v => if truthy v then v else y
  | None => y
  end.

(** [d.get(key, default)] for a key that is absent ([None]) or present
    with a value that may itself be [None]. *)
Definition get_default {A : Type} (x : option (option A)) (default : A)
  : option A :=
  match x with
  | Some v => v
  | None => Some default
  end.

(** [d.get(key, default)] for a key whose value, when present, is not
    [None]. *)
Definition get_or {A : Type} (x : option A) (default : A) : A :=
  match x with
  | Some v => v
  | None => default
  end.

(** An optional value as JSON: [None] is [null]. *)
Definition opt_json {A : Type} (inj : A -> Json) (x : option A) : Json :=
  match x with
  | Some v => inj v
  | None => JNull
  end.

(** [str(n)] for an [int]. *)
Definition str_int (n : Z) : string := NilZero.string_of_int (Z.to_int n).

(** Float literals of the sources. *)
Definition float_0_0 : float := S754_zero false.
Definition float_1_0 : float := S754_finite false 4503599627370496 (-52).
Definition float_0_7 : float := S754_finite false 6305039478318694 (-53).

(** ** Configuration (main.py, class Config) *)

Record Config : Type := {
  GPT_OSS_API_URL : string;
  GPT_OSS_API_KEY : string;
  MAX_TOKENS : Z;
  TEMPERATURE : float;
  PORT : Z;
  HOST : string
}.

(** The configuration of a process started with none of the environment
    variables set. *)
Definition default_config : Config := {|
  GPT_OSS_API_URL := "http://localhost:8000";
  GPT_OSS_API_KEY := "";
  MAX_TOKENS := 2048;
  TEMPERATURE := float_0_7;
  PORT := 8080;
  HOST := "0.0.0.0"
|}.

(** ** The pydantic models (main.py) *)

Record ChatMessage : Type := {
  role : string;
  content : string
}.

Record ChatCompletionRequest : Type := {
  messages : list ChatMessage;
  model : string;
  max_tokens : option Z;
  temperature : option float;
  stream : option bool;
  top_p : option float;
  frequency_penalty : option float;
  presence_penalty : option float
}.

(** [msg.dict()] *)
Definition ChatMessage_dict (msg : ChatMessage) : Json :=
  JObj [("role", JStr (role msg)); ("content", JStr (content msg))].

(** ** Exceptions *)

Inductive exn : Type :=
| HTTPException (status_code : Z) (detail : string)
| RequestError (message : string)
| ValueError (message : string).

(** [str(e)].  Starlette prints an HTTPException as its status code, a
    colon and its detail; the other two print their message. *)
Definition str (e : exn) : string :=
  match e with
  | HTTPException status_code detail => str_int status_code ++ ": " ++ detail
  | RequestError message => message
  | ValueError message => message
  end.

(** ** The upstream client (httpx.AsyncClient) *)

Definition Headers : Type := dict string.

(** The response of a buffered POST.  [json] is what [response.json()]
    gives: the decoded body, or the message of the decoding error. *)
Record Response : Type := {
  status_code : Z;
  text : string;
  json : string + Json
}.

(** The response of a streaming POST: its status, known before any of
    the body is read, the text chunks [aiter_text()] delivers, and the
    message of the [RequestError] that ends the body when the connection
    drops before its end. *)
Record StreamedResponse : Type := {
  stream_status_code : Z;
  chunks : list string;
  dropped : option string
}.

(** An HTTP call either fails at the connection (DNS, refused
    connection, timeout: an [httpx.RequestError] with this message) or is
    answered. *)
Inductive attempt (A : Type) : Type :=
| Refused (message : string)
| Answered (response : A).

Arguments Refused {A} message.
Arguments Answered {A} response.

Record AsyncClient : Type := {
  client_post : string -> Json -> Headers -> attempt Response;
  client_stream : string -> Json -> Headers -> attempt StreamedResponse
}.

(** ** Effects *)

(** What reaches the backend. *)
Inductive call : Type :=
| Post (url : string) (body : Json) (headers : Headers)
| Stream (url : string) (body : Json) (headers : Headers)
| Aread.

Inductive result (A : Type) : Type :=
| Ok (value : A)
| Raise (e : exn).

Arguments Ok {A} value.
Arguments Raise {A} e.

(** A computation: from the calls made so far to its result and the calls
    made by its end. *)
Definition M (A : Type) : Type := list call -> result A * list call.

Definition ret {A : Type} (a : A) : M A := fun calls => (Ok a, calls).

Definition raise {A : Type} (e : exn) : M A := fun calls => (Raise e, calls).

Definition bind {A B : Type} (m : M A) (k : A -> M B) : M B :=
  fun calls =>
    match m calls with
    | (Ok a, calls') => k a calls'
    | (Raise e, calls') => (Raise e, calls')
    end.

Definition emit (c : call) : M unit := fun calls => (Ok tt, (calls ++ [c])%list).

(** [try: body  except ... as e: handle e] *)
Definition try_except {A : Type} (body : M A) (handle : exn -> M A) : M A :=
  fun calls =>
    match body calls with
    | (Ok a, calls') => (Ok a, calls')
    | (Raise e, calls') => handle e calls'
    end.

(** An attempt as a computation. *)
Definition await {A : Type} (a : attempt A) : M A :=
  match a with
  | Refused message => raise (RequestError message)
  | Answered response => ret response
  end.

Declare Scope relay_scope.
Delimit Scope relay_scope with relay.
Notation "x <- m ;; k" := (bind m (fun x => k))
  (at level 61, m at next level, right associativity) : relay_scope.
Notation "m ;; k" := (bind m (fun _ => k))
  (at level 61, right associativity) : relay_scope.
Local Open Scope relay_scope.

(** ** Streamed bodies *)

(** What iterating a generator to its end gives: the chunks it yielded,
    in order, and the exception that ended it, if one did. *)
Record Generated : Type := {
  yielded : list string;
  raised : option exn
}.

(** A generator object: nothing of its body runs until it is iterated,
    and it is then run from the calls made by that time. *)
Definition Generator : Type := list call -> Generated * list call.

(** [await response.aread()] followed by [.decode()]: the whole body. *)
Definition aread (response : StreamedResponse) : M string :=
  emit Aread ;;
  match dropped response with
  | Some message => raise (RequestError message)
  | None => ret (String.concat "" (chunks response))
  end.

(** The loop of [generate_stream]:
    [async for chunk in response.aiter_text(): if chunk: yield chunk]. *)
Fixpoint forward_chunks (chunks : list string) (dropped : option string)
  : Generated :=
  match chunks with
  | [] => {| yielded := []; raised := option_map RequestError dropped |}
  | chunk :: rest =>
      let later := forward_chunks rest dropped in
      {| yielded :=
           ((if truthy_str chunk then [chunk] else []) ++ yielded later)%list;
         raised := raised later |}
  end.

(** ** The relay (main.py, chat_completions) *)

Definition completions_url (config : Config) : string :=
  GPT_OSS_API_URL config ++ "/v1/chat/completions".

(** The payload sent upstream (main.py, lines 152-161). *)
Definition gpt_oss_request (config : Config) (request : ChatCompletionRequest)
  : Json :=
  JObj [
    ("messages", JArr (map ChatMessage_dict (messages request)));
    ("model", JStr (model request));
    ("max_tokens",
      JInt (py_or truthy_int (max_tokens request) (MAX_TOKENS config)));
    ("temperature",
      JFloat (py_or truthy_float (temperature request) (TEMPERATURE config)));
    ("top_p", opt_json JFloat (top_p request));
    ("frequency_penalty", opt_json JFloat (frequency_penalty request));
    ("presence_penalty", opt_json JFloat (presence_penalty request));
    ("stream", opt_json JBool (stream request))
  ].

(** The headers sent upstream (main.py, lines 164-166). *)
Definition request_headers (config : Config) : Headers :=
  ("Content-Type", "application/json")
  :: (if truthy_str (GPT_OSS_API_KEY config)
      then [("Authorization", "Bearer " ++ GPT_OSS_API_KEY config)]
      else []).

(** The inner generator of [chat_completions] (main.py, lines 173-190). *)
Definition generate_stream (config : Config) (client : AsyncClient)
  (payload : Json) (headers : Headers) : Generator :=
  fun calls =>
    match (emit (Stream (completions_url config) payload headers) ;;
           await (client_stream client (completions_url config) payload headers))
            calls with
    | (Raise e, calls') => ({| yielded := []; raised := Some e |}, calls')
    | (Ok response, calls') =>
        if negb (stream_status_code response =? 200) then
          match aread response calls' with
          | (Raise e, calls'') =>
              ({| yielded := []; raised := Some e |}, calls'')
          | (Ok error_text, calls'') =>
              ({| yielded := [];
                  raised := Some (HTTPException (stream_status_code response)
                                    ("GPT-OSS API error: " ++ error_text)) |},
               calls'')
          end
        else (forward_chunks (chunks response) (dropped response), calls')
    end.

(** What the endpoint returns: the decoded upstream body, or a
    [StreamingResponse] over a generator.  The source leaves the status
    code of the streaming response at the constructor's default, 200. *)
Inductive Reply : Type :=
| JsonBody (body : Json)
| StreamingResponse (body : Generator) (status_code : Z)
    (media_type : string) (headers : Headers).

Definition StreamingResponse_status_default : Z := 200.

(** The [except] clauses of [chat_completions] (main.py, lines 218-229):
    the first that matches the exception handles it. *)
Definition chat_completions_except (e : exn) : M Reply :=
  match e with
  | RequestError _ =>
      raise (HTTPException 503 ("Failed to connect to GPT-OSS API: " ++ str e))
  | _ =>
      raise (HTTPException 500 ("Internal server error: " ++ str e))
  end.

Definition chat_completions (config : Config)
  (request : ChatCompletionRequest) (client : AsyncClient) : M Reply :=
  try_except
    (let payload := gpt_oss_request config request in
     let headers := request_headers config in
     if truthy_opt (fun b : bool => b) (stream request) then
       ret (StreamingResponse
              (generate_stream config client payload headers)
              StreamingResponse_status_default
              "text/plain"
              [("Cache-Control", "no-cache")])
     else
       emit (Post (completions_url config) payload headers) ;;
       response <- await (client_post client (completions_url config)
                            payload headers) ;;
       if negb (status_code response =? 200) then
         raise (HTTPException (status_code response)
                  ("GPT-OSS API error: " ++ text response))
       else
         match json response with
         | inl message => raise (ValueError message)
         | inr body => ret (JsonBody body)
         end)
    chat_completions_except.

(** The dependency [get_http_client] over the global [http_client], which
    is [None] until the application's lifespan has started. *)
Definition get_http_client (http_client : option AsyncClient)
  : M AsyncClient :=
  match http_client with
  | None => raise (HTTPException 500 "HTTP client not initialized")
  | Some client => ret client
  end.

(** ** The serverless handler (runpod_handler.py) *)

(** An entry of an event's "messages" list: a dict whose "role" and
    "content" keys may be missing. *)
Record MessageDict : Type := {
  msg_role : option string;
  msg_content : option string
}.

(** The "input" dict of an event, key by key; [None] is a missing key.
    A key read with a default keeps apart the missing key and the key
    present with [None].  Values have the types the pydantic models
    accept: a value of another type makes a model's constructor raise,
    which the last [except] clause of the handler turns into an error
    envelope. *)
Record InputData : Type := {
  input_prompt : option string;
  input_messages : option (list MessageDict);
  input_model : option string;
  input_max_tokens : option Z;
  input_temperature : option float;
  input_stream : option (option bool);
  input_top_p : option (option float);
  input_frequency_penalty : option (option float);
  input_presence_penalty : option (option float)
}.

(** The empty dict. *)
Definition empty_input : InputData := {|
  input_prompt := None;
  input_messages := None;
  input_model := None;
  input_max_tokens := None;
  input_temperature := None;
  input_stream := None;
  input_top_p := None;
  input_frequency_penalty := None;
  input_presence_penalty := None
|}.

Record Event : Type := {
  input : option InputData
}.

(** The dict [handler] returns: [{"success": True, "result": result}] or
    [{"error": error}]. *)
Inductive Envelope : Type :=
| Success (result : Reply)
| Error (error : string).

Definition missing_field_error : string :=
  "Missing required field: either 'prompt' or 'messages' must be provided".

(** The messages of the request (runpod_handler.py, lines 33-47); [None]
    where the handler returns the missing-field error. *)
Definition handler_messages (input_data : InputData)
  : option (list ChatMessage) :=
  match input_prompt input_data with
  | Some prompt => Some [ {| role := "user"; content := prompt |} ]
  | None =>
      match input_messages input_data with
      | Some msgs =>
          Some (map (fun msg =>
                       {| role := get_or (msg_role msg) "user";
                          content := get_or (msg_content msg) "" |})
                    msgs)
      | None => None
      end
  end.

(** The request built from them (runpod_handler.py, lines 50-59). *)
Definition handler_request (input_data : InputData)
  (messages : list ChatMessage) : ChatCompletionRequest := {|
  messages := messages;
  model := get_or (input_model input_data) "gpt-oss-120b";
  max_tokens := input_max_tokens input_data;
  temperature := input_temperature input_data;
  stream := get_default (input_stream input_data) false;
  top_p := get_default (input_top_p input_data) float_1_0;
  frequency_penalty := get_default (input_frequency_penalty input_data) float_0_0;
  presence_penalty := get_default (input_presence_penalty input_data) float_0_0
|}.

Definition handler (config : Config) (http_client : option AsyncClient)
  (event : Event) : M Envelope :=
  try_except
    (let input_data := get_or (input event) empty_input in
     match handler_messages input_data with
     | None => ret (Error missing_field_error)
     | Some messages =>
         let request := handler_request input_data messages in
         client <- get_http_client http_client ;;
         result <- chat_completions config request client ;;
         ret (Success result)
     end)
    (fun e => ret (Error ("Handler error: " ++ str e))).

(** ** What the caller of the endpoint sees *)

(** The status code of the HTTPException a computation ended with, which
    FastAPI answers the caller with; [None] when it returned, or ended
    with another exception. *)
Definition raised_status {A : Type} (r : result A) : option Z :=
  match r with
  | Raise (HTTPException status_code _) => Some status_code
  | _ => None
  end.

(** ** Sample requests and backends *)

Definition hello : ChatMessage := {| role := "user"; content := "Hello" |}.

(** A request that sets only its messages and, when [streamed], its
    stream flag. *)
Definition plain_request (msgs : list ChatMessage) (streamed : bool)
  : ChatCompletionRequest := {|
  messages := msgs;
  model := "gpt-oss-120b";
  max_tokens := None;
  temperature := None;
  stream := Some streamed;
  top_p := Some float_1_0;
  frequency_penalty := Some float_0_0;
  presence_penalty := Some float_0_0
|}.

(** A backend that treats every call alike. *)
Definition backend (posted : attempt Response)
  (streamed : attempt StreamedResponse) : AsyncClient := {|
  client_post := fun _ _ _ => posted;
  client_stream := fun _ _ _ => streamed
|}.

Definition overloaded : Response := {|
  status_code := 503;
  text := "overloaded";
  json := inl "Expecting value: line 1 column 1 (char 0)"
|}.

Definition overloaded_stream : StreamedResponse := {|
  stream_status_code := 503;
  chunks := ["over"; "loaded"];
  dropped := None
|}.

Definition greeting_body : Json := JArr [JInt 72; JInt 105].

Definition greeting : Response := {|
  status_code := 200;
  text := "[72, 105]";
  json := inr greeting_body
|}.

Definition unreachable : AsyncClient :=
  backend (Refused "All connection attempts failed")
          (Refused "All connection attempts failed").

Definition with_gap : StreamedResponse := {|
  stream_status_code := 200;
  chunks := ["a"; ""; "b"];
  dropped := None
|}.

Definition steady : StreamedResponse := {|
  stream_status_code := 200;
  chunks := ["Hel"; "lo"];
  dropped := None
|}.

(** A request that asks for no tokens at temperature zero. *)
Definition zero_request : ChatCompletionRequest := {|
  messages := [hello];
  model := "gpt-oss-120b";
  max_tokens := Some 0;
  temperature := Some float_0_0;
  stream := Some false;
  top_p := Some float_1_0;
  frequency_penalty := Some float_0_0;
  presence_penalty := Some float_0_0
|}.

Definition not_initialized_error : string :=
  "Handler error: 500: HTTP client not initialized".

Definition prompt_input (prompt : string) (streamed : option (option bool))
  : InputData := {|
  input_prompt := Some prompt;
  input_messages := None;
  input_model := None;
  input_max_tokens := None;
  input_temperature := None;
  input_stream := streamed;
  input_top_p := None;
  input_frequency_penalty := None;
  input_presence_penalty := None
|}.

Definition two_entries : list MessageDict :=
  [ {| msg_role := Some "system"; msg_content := None |};
    {| msg_role := None; msg_content := Some "Hello" |} ].

Definition messages_input (entries : list MessageDict) : InputData := {|
  input_prompt := None;
  input_messages := Some entries;
  input_model := None;
  input_max_tokens := None;
  input_temperature := None;
  input_stream := None;
  input_top_p := None;
  input_frequency_penalty := None;
  input_presence_penalty := None
|}.

(** The input with its "messages" key replaced, or removed. *)
Definition with_messages (input_data : InputData)
  (entries : option (list MessageDict)) : InputData := {|
  input_prompt := input_prompt input_data;
  input_messages := entries;
  input_model := input_model input_data;
  input_max_tokens := input_max_tokens input_data;
  input_temperature := input_temperature input_data;
  input_stream := input_stream input_data;
  input_top_p := input_top_p input_data;
  input_frequency_penalty := input_frequency_penalty input_data;
  input_presence_penalty := input_presence_penalty input_data
|}.

Definition both_input : InputData := {|
  input_prompt := Some "Hello";
  input_messages := Some two_entries;
  input_model := None;
  input_max_tokens := None;
  input_temperature := None;
  input_stream := None;
  input_top_p := None;
  input_frequency_penalty := None;
  input_presence_penalty := None
|}.

(** ** The connection test (main.py, test_connection) *)

(** The request the test sends:
    [ChatCompletionRequest(messages=[...], max_tokens=50)], its other
    fields at the defaults of the model. *)
Definition test_request : ChatCompletionRequest := {|
  messages :=
    [ {| role := "user";
         content := "Hello! Can you respond with a simple greeting?" |} ];
  model := "gpt-oss-120b";
  max_tokens := Some 50;
  temperature := None;
  stream := Some false;
  top_p := Some float_1_0;
  frequency_penalty := Some float_0_0;
  presence_penalty := Some float_0_0
|}.

(** The dict the test returns: its "status", its "message" and, on
    success, its "test_response". *)
Inductive TestReport : Type :=
| Report (status : string) (message : string) (test_response : option Reply).

Definition test_connection (config : Config) (client : AsyncClient)
  : M TestReport :=
  try_except
    (response <- chat_completions config test_request client ;;
     ret (Report "success" "Connection to GPT-OSS API is working"
            (Some response)))
    (fun e =>
       ret (Report "error" ("Failed to connect to GPT-OSS API: " ++ str e)
              None)).

(** A backend whose body does not decode. *)
Definition garbled : Response := {|
  status_code := 200;
  text := "<html>";
  json := inl "Expecting value: line 1 column 1 (char 0)"
|}.

(** A stream that breaks after its first chunk. *)
Definition broken : StreamedResponse := {|
  stream_status_code := 200;
  chunks := ["Hel"];
  dropped := Some "peer closed connection"
|}.

(** The payload the handler sends for an input that holds only a prompt. *)
Definition prompt_payload (config : Config) (prompt : string) : Json :=
  JObj [
    ("messages",
      JArr [JObj [("role", JStr "user"); ("content", JStr prompt)]]);
    ("model", JStr "gpt-oss-120b");
    ("max_tokens", JInt (MAX_TOKENS config));
    ("temperature", JFloat (TEMPERATURE config));
    ("top_p", JFloat float_1_0);
    ("frequency_penalty", JFloat float_0_0);
    ("presence_penalty", JFloat float_0_0);
    ("stream", JBool false)
  ].

(** ** The two branches of the relay *)

(** The buffered branch, outcome by outcome of the POST. *)
Lemma chat_completions_buffered (config : Config)
  (request : ChatCompletionRequest) (client : AsyncClient) (calls : list call) :
  truthy_opt (fun b : bool => b) (stream request) = false ->
  chat_completions config request client calls =
  let payload := gpt_oss_request config request in
  let headers := request_headers config in
  let calls' := (calls ++ [Post (completions_url config) payload headers])%list in
  match client_post client (completions_url config) payload headers with
  | Refused message =>
      (Raise (HTTPException 503
                ("Failed to connect to GPT-OSS API: " ++ message)), calls')
  | Answered response =>
      if status_code response =? 200 then
        match json response with
        | inl message =>
            (Raise (HTTPException 500 ("Internal server error: " ++ message)),
             calls')
        | inr body => (Ok (JsonBody body), calls')
        end
      else
        (Raise (HTTPException 500
                  ("Internal server error: "
                   ++ str_int (status_code response) ++ ": "
                   ++ "GPT-OSS API error: " ++ text response)), calls')
  end.
Proof.
  intros Hstream.
  unfold chat_completions, try_except, bind, emit, await.
  rewrite Hstream. cbv zeta.
  destruct (client_post client _ _ _) as [message | response]; [reflexivity |].
  cbn [ret raise].
  destruct (status_code response =? 200); cbn [negb].
  - destruct (json response); reflexivity.
  - reflexivity.
Qed.

(** The streaming branch: the endpoint returns at once, with no call
    made, a response whose body has not started to run. *)
Lemma chat_completions_streaming (config : Config)
  (request : ChatCompletionRequest) (client : AsyncClient) (calls : list call) :
  stream request = Some true ->
  chat_completions config request client calls =
  (Ok (StreamingResponse
         (generate_stream config client (gpt_oss_request config request)
            (request_headers config))
         200 "text/plain" [("Cache-Control", "no-cache")]),
   calls).
Proof.
  intros Hstream.
  unfold chat_completions, try_except. rewrite Hstream. reflexivity.
Qed.

(** ** Upstream errors *)

(** Whatever status other than 200 the backend answers a buffered call
    with, the HTTPException raised for it is caught by the last [except]
    clause of [chat_completions] and leaves as a 500. *)
Lemma buffered_upstream_error_status (config : Config)
  (request : ChatCompletionRequest) (client : AsyncClient)
  (response : Response) (calls : list call) :
  truthy_opt (fun b : bool => b) (stream request) = false ->
  client_post client (completions_url config) (gpt_oss_request config request)
    (request_headers config) = Answered response ->
  (status_code response =? 200) = false ->
  raised_status (fst (chat_completions config request client calls)) = Some 500.
Proof.
  intros Hstream Hpost Hstatus.
  rewrite chat_completions_buffered by exact Hstream.
  cbv zeta. rewrite Hpost, Hstatus. reflexivity.
Qed.

(** C1, on the code: a buffered relay whose backend answers 503 with the
    body "overloaded" makes one POST and then raises an HTTPException
    whose status is 500, not 503; the upstream status and body survive
    only inside its detail. *)
Theorem buffered_upstream_503_leaves_as_500 :
  chat_completions default_config (plain_request [hello] false)
    (backend (Answered overloaded) (Answered overloaded_stream)) [] =
  (Raise (HTTPException 500
            "Internal server error: 503: GPT-OSS API error: overloaded"),
   [Post "http://localhost:8000/v1/chat/completions"
      (gpt_oss_request default_config (plain_request [hello] false))
      [("Content-Type", "application/json")]]).
Proof. reflexivity. Qed.

(** C2, on the code: a streaming relay whose backend answers 503 returns,
    before any call is made, a streaming response with status 200; when
    its body is then iterated the stream is opened, the error body is read
    to its end, and the body raises an HTTPException 503 without having
    yielded a chunk. *)
Theorem streaming_upstream_503_starts_as_200 :
  exists body : Generator,
    chat_completions default_config (plain_request [hello] true)
      (backend (Answered overloaded) (Answered overloaded_stream)) [] =
    (Ok (StreamingResponse body 200 "text/plain"
           [("Cache-Control", "no-cache")]), [])
    /\ body [] =
       ({| yielded := [];
           raised := Some (HTTPException 503
                             "GPT-OSS API error: overloaded") |},
        [Stream "http://localhost:8000/v1/chat/completions"
           (gpt_oss_request default_config (plain_request [hello] true))
           [("Content-Type", "application/json")];
         Aread]).
Proof. eexists. split; reflexivity. Qed.

(** ** Transport failures *)

(** C6: when the buffered POST fails at the connection, the relay raises
    an HTTPException with status 503 whose detail is the fixed text
    "Failed to connect to GPT-OSS API: " followed by the message of the
    failure, and nothing else; and no answer of the backend, whatever its
    status, makes the relay raise an HTTPException with status 503. *)
Theorem transport_failure_is_503 (config : Config)
  (request : ChatCompletionRequest) (client : AsyncClient)
  (message : string) (calls : list call) :
  truthy_opt (fun b : bool => b) (stream request) = false ->
  client_post client (completions_url config) (gpt_oss_request config request)
    (request_headers config) = Refused message ->
  chat_completions config request client calls =
  (Raise (HTTPException 503 ("Failed to connect to GPT-OSS API: " ++ message)),
   (calls ++ [Post (completions_url config) (gpt_oss_request config request)
                (request_headers config)])%list)
  /\ forall (answering : AsyncClient) (response : Response),
       client_post answering (completions_url config)
         (gpt_oss_request config request) (request_headers config)
       = Answered response ->
       raised_status (fst (chat_completions config request answering calls))
       <> Some 503.
Proof.
  intros Hstream Hpost. split.
  - rewrite chat_completions_buffered by exact Hstream.
    cbv zeta. rewrite Hpost. reflexivity.
  - intros answering response Hanswer.
    rewrite chat_completions_buffered by exact Hstream.
    cbv zeta. rewrite Hanswer.
    destruct (status_code response =? 200); [| discriminate].
    destruct (json response); discriminate.
Qed.

Lemma transport_failure_is_503_witness :
  chat_completions default_config (plain_request [hello] false) unreachable [] =
  (Raise (HTTPException 503
            "Failed to connect to GPT-OSS API: All connection attempts failed"),
   [Post "http://localhost:8000/v1/chat/completions"
      (gpt_oss_request default_config (plain_request [hello] false))
      [("Content-Type", "application/json")]])
  /\ raised_status
       (fst (chat_completions default_config (plain_request [hello] false)
               (backend (Answered overloaded) (Answered overloaded_stream)) []))
     <> Some 503.
Proof.
  destruct (transport_failure_is_503 default_config (plain_request [hello] false)
              unreachable "All connection attempts failed" []
              eq_refl eq_refl) as [Hfail Hother].
  split.
  - exact Hfail.
  - exact (Hother (backend (Answered overloaded) (Answered overloaded_stream))
             overloaded eq_refl).
Defined.

(** ** Forwarding of chunks *)

(** The loop yields the chunks that are not empty, in the order read. *)
Lemma forward_chunks_yielded (chunks : list string) (dropped : option string) :
  yielded (forward_chunks chunks dropped) = filter truthy_str chunks.
Proof.
  induction chunks as [| chunk rest IH]; cbn [forward_chunks yielded filter].
  - reflexivity.
  - rewrite IH. destruct (truthy_str chunk); reflexivity.
Qed.

(** A body that does not break ends the loop without an exception, a body
    that breaks ends it with the [RequestError] of the break. *)
Lemma forward_chunks_raised (chunks : list string) (dropped : option string) :
  raised (forward_chunks chunks dropped) = option_map RequestError dropped.
Proof.
  induction chunks as [| chunk rest IH]; cbn [forward_chunks raised].
  - reflexivity.
  - exact IH.
Qed.

(** Where no chunk is empty the filter keeps them all. *)
Lemma filter_truthy_all (chunks : list string) :
  forallb truthy_str chunks = true -> filter truthy_str chunks = chunks.
Proof.
  induction chunks as [| chunk rest IH]; cbn [forallb filter].
  - reflexivity.
  - intros H. apply andb_true_iff in H as [Hchunk Hrest].
    rewrite Hchunk, (IH Hrest). reflexivity.
Qed.

(** The generator over a stream answered with 200: one call, the opening
    of the stream, and then the loop. *)
Lemma generate_stream_200 (config : Config) (client : AsyncClient)
  (payload : Json) (headers : Headers) (response : StreamedResponse)
  (calls : list call) :
  client_stream client (completions_url config) payload headers
  = Answered response ->
  stream_status_code response = 200 ->
  generate_stream config client payload headers calls =
  (forward_chunks (chunks response) (dropped response),
   (calls ++ [Stream (completions_url config) payload headers])%list).
Proof.
  intros Hopen Hstatus.
  unfold generate_stream, bind, emit, await.
  rewrite Hopen. cbn [ret]. rewrite Hstatus. reflexivity.
Qed.

(** C3 as stated fails: of the three chunks "a", "" and "b" read from a
    backend that answered 200, the caller is delivered two; the empty
    one is dropped. *)
Lemma empty_chunk_is_dropped :
  exists body : Generator,
    chat_completions default_config (plain_request [hello] true)
      (backend (Answered greeting) (Answered with_gap)) [] =
    (Ok (StreamingResponse body 200 "text/plain"
           [("Cache-Control", "no-cache")]), [])
    /\ stream_status_code with_gap = 200
    /\ chunks with_gap = ["a"; ""; "b"]
    /\ yielded (fst (body [])) = ["a"; "b"]
    /\ yielded (fst (body [])) <> chunks with_gap.
Proof.
  eexists. split; [reflexivity |].
  repeat split; try reflexivity.
  cbv. discriminate.
Qed.

(** C3, amended: for a streaming request whose stream the backend answers
    with 200, the chunks delivered to the caller are the chunks read from
    upstream that are not empty, each one whole and in the order read
    (the guard [if chunk] skips the empty ones); where none is empty they
    are the chunks read, element for element. *)
Theorem streamed_chunks_are_the_nonempty_upstream_chunks (config : Config)
  (request : ChatCompletionRequest) (client : AsyncClient)
  (response : StreamedResponse) (calls : list call) :
  stream request = Some true ->
  client_stream client (completions_url config) (gpt_oss_request config request)
    (request_headers config) = Answered response ->
  stream_status_code response = 200 ->
  exists body : Generator,
    chat_completions config request client calls =
    (Ok (StreamingResponse body 200 "text/plain"
           [("Cache-Control", "no-cache")]), calls)
    /\ (forall later : list call,
          yielded (fst (body later)) = filter truthy_str (chunks response))
    /\ (forallb truthy_str (chunks response) = true ->
        forall later : list call,
          yielded (fst (body later)) = chunks response).
Proof.
  intros Hstream Hopen Hstatus.
  eexists. split; [apply chat_completions_streaming; exact Hstream |].
  assert (Hbody : forall later : list call,
             yielded (fst (generate_stream config client
                             (gpt_oss_request config request)
                             (request_headers config) later))
             = filter truthy_str (chunks response)).
  { intros later.
    rewrite (generate_stream_200 _ _ _ _ response) by assumption.
    cbn [fst]. apply forward_chunks_yielded. }
  split.
  - exact Hbody.
  - intros Hall later. rewrite Hbody. apply filter_truthy_all, Hall.
Qed.

Lemma streamed_chunks_witness :
  exists body : Generator,
    chat_completions default_config (plain_request [hello] true)
      (backend (Answered greeting) (Answered steady)) [] =
    (Ok (StreamingResponse body 200 "text/plain"
           [("Cache-Control", "no-cache")]), [])
    /\ (forall later : list call, yielded (fst (body later)) = ["Hel"; "lo"]).
Proof.
  destruct (streamed_chunks_are_the_nonempty_upstream_chunks default_config
              (plain_request [hello] true)
              (backend (Answered greeting) (Answered steady)) steady []
              eq_refl eq_refl eq_refl) as [body [Hreturned [_ Hall]]].
  exists body. split.
  - exact Hreturned.
  - exact (Hall eq_refl).
Defined.

(** ** Defaults of the sampling parameters *)

(** The two resolved fields of the payload are always an integer and a
    float, never [null]. *)
Lemma payload_sampling_fields (config : Config) (request : ChatCompletionRequest) :
  field (gpt_oss_request config request) "max_tokens"
  = Some (JInt (py_or truthy_int (max_tokens request) (MAX_TOKENS config)))
  /\ field (gpt_oss_request config request) "temperature"
     = Some (JFloat (py_or truthy_float (temperature request)
                       (TEMPERATURE config))).
Proof. split; reflexivity. Qed.

(** A field the request leaves out takes the configured default. *)
Lemma payload_defaults_when_absent (config : Config)
  (request : ChatCompletionRequest) :
  (max_tokens request = None ->
   field (gpt_oss_request config request) "max_tokens"
   = Some (JInt (MAX_TOKENS config)))
  /\ (temperature request = None ->
      field (gpt_oss_request config request) "temperature"
      = Some (JFloat (TEMPERATURE config))).
Proof.
  split; intros H; cbn; rewrite H; reflexivity.
Qed.

(** A supplied value that is not zero is sent as it is. *)
Lemma payload_keeps_nonzero (config : Config) (request : ChatCompletionRequest) :
  (forall n : Z, max_tokens request = Some n -> n <> 0 ->
     field (gpt_oss_request config request) "max_tokens" = Some (JInt n))
  /\ (forall t : float, temperature request = Some t -> truthy_float t = true ->
        field (gpt_oss_request config request) "temperature" = Some (JFloat t)).
Proof.
  split.
  - intros n H Hn. cbn. rewrite H. cbn. unfold truthy_int.
    destruct (Z.eqb_spec n 0); [contradiction | reflexivity].
  - intros t H Ht. cbn. rewrite H. cbn. rewrite Ht. reflexivity.
Qed.

(** A supplied zero is falsy, so [or] replaces it by the default. *)
Lemma payload_replaces_zero (config : Config) (request : ChatCompletionRequest) :
  (max_tokens request = Some 0 ->
   field (gpt_oss_request config request) "max_tokens"
   = Some (JInt (MAX_TOKENS config)))
  /\ (forall sign : bool, temperature request = Some (S754_zero sign) ->
        field (gpt_oss_request config request) "temperature"
        = Some (JFloat (TEMPERATURE config))).
Proof.
  split.
  - intros H. cbn. rewrite H. reflexivity.
  - intros sign H. cbn. rewrite H. reflexivity.
Qed.

(** C4, on the code: for a request that supplies max_tokens 0 and
    temperature 0.0, the payload sent upstream under the default
    configuration carries max_tokens 2048 and temperature 0.7, not the
    supplied zeros. *)
Theorem supplied_zero_is_sent_as_default :
  max_tokens zero_request = Some 0
  /\ temperature zero_request = Some float_0_0
  /\ field (gpt_oss_request default_config zero_request) "max_tokens"
     = Some (JInt 2048)
  /\ field (gpt_oss_request default_config zero_request) "temperature"
     = Some (JFloat float_0_7).
Proof. repeat split. Qed.

(** ** The handler, case by case *)

(** With messages and a client the handler wraps what the relay gives. *)
Lemma handler_relays (config : Config) (client : AsyncClient) (event : Event)
  (msgs : list ChatMessage) (calls : list call) :
  handler_messages (get_or (input event) empty_input) = Some msgs ->
  handler config (Some client) event calls =
  match chat_completions config
          (handler_request (get_or (input event) empty_input) msgs)
          client calls with
  | (Ok reply, calls') => (Ok (Success reply), calls')
  | (Raise e, calls') => (Ok (Error ("Handler error: " ++ str e)), calls')
  end.
Proof.
  intros Hmsgs. unfold handler, try_except. cbv zeta. rewrite Hmsgs.
  unfold bind, get_http_client, ret.
  destruct (chat_completions _ _ _ _) as [[reply | e] calls']; reflexivity.
Qed.

(** With messages but no client the handler stops at [get_http_client]. *)
Lemma handler_without_client (config : Config) (event : Event)
  (msgs : list ChatMessage) (calls : list call) :
  handler_messages (get_or (input event) empty_input) = Some msgs ->
  handler config None event calls = (Ok (Error not_initialized_error), calls).
Proof.
  intros Hmsgs. unfold handler, try_except. cbv zeta. rewrite Hmsgs.
  reflexivity.
Qed.

(** Without messages the handler returns before it looks for a client. *)
Lemma handler_without_messages (config : Config)
  (http_client : option AsyncClient) (event : Event) (calls : list call) :
  handler_messages (get_or (input event) empty_input) = None ->
  handler config http_client event calls = (Ok (Error missing_field_error), calls).
Proof.
  intros Hmsgs. unfold handler, try_except. cbv zeta. rewrite Hmsgs.
  reflexivity.
Qed.

(** ** Streaming through the handler *)

(** C5 as stated fails: with an initialised client, the event
    [{"input": {"prompt": "Hello", "stream": True}}] makes no call to the
    backend (no buffered POST) and the envelope returned holds, as its
    result, the streaming response whose body has not been run. *)
Lemma handler_returns_the_stream_object :
  exists body : Generator,
    input_stream (prompt_input "Hello" (Some (Some true))) = Some (Some true)
    /\ handler default_config
         (Some (backend (Answered greeting) (Answered steady)))
         {| input := Some (prompt_input "Hello" (Some (Some true))) |} [] =
       (Ok (Success (StreamingResponse body 200 "text/plain"
                       [("Cache-Control", "no-cache")])), []).
Proof. eexists. split; reflexivity. Qed.

(** C5, amended: for an input with stream=true the handler passes the flag
    on to the relay as it is and makes no upstream call.  With messages
    and an initialised client it returns the success envelope whose result
    is the relay's streaming response, its body not yet run; with no
    client it returns the error envelope of [get_http_client]; with
    neither prompt nor messages the missing-field error envelope. *)
Theorem handler_stream_true (config : Config)
  (http_client : option AsyncClient) (event : Event) (input_data : InputData)
  (calls : list call) :
  input event = Some input_data ->
  input_stream input_data = Some (Some true) ->
  handler config http_client event calls =
  (Ok match handler_messages input_data with
      | None => Error missing_field_error
      | Some msgs =>
          match http_client with
          | None => Error not_initialized_error
          | Some client =>
              Success
                (StreamingResponse
                   (generate_stream config client
                      (gpt_oss_request config (handler_request input_data msgs))
                      (request_headers config))
                   200 "text/plain" [("Cache-Control", "no-cache")])
          end
      end,
   calls).
Proof.
  intros Hinput Hstream.
  assert (Hdata : get_or (input event) empty_input = input_data)
    by (rewrite Hinput; reflexivity).
  destruct (handler_messages input_data) as [msgs |] eqn:Hmsgs.
  - destruct http_client as [client |].
    + rewrite (handler_relays _ _ _ msgs) by (rewrite Hdata; exact Hmsgs).
      rewrite Hdata, chat_completions_streaming; [reflexivity |].
      cbn. rewrite Hstream. reflexivity.
    + apply (handler_without_client _ _ msgs). rewrite Hdata. exact Hmsgs.
  - apply handler_without_messages. rewrite Hdata. exact Hmsgs.
Qed.

Lemma handler_stream_true_witness :
  handler default_config None
    {| input := Some (prompt_input "Hello" (Some (Some true))) |} [] =
  (Ok (Error "Handler error: 500: HTTP client not initialized"), []).
Proof.
  exact (handler_stream_true default_config None
           {| input := Some (prompt_input "Hello" (Some (Some true))) |}
           (prompt_input "Hello" (Some (Some true))) [] eq_refl eq_refl).
Defined.

(** ** Translation of the input *)

(** The message built from one entry of the "messages" list. *)
Lemma entry_defaults (msg : MessageDict) :
  let built := {| role := get_or (msg_role msg) "user";
                  content := get_or (msg_content msg) "" |} in
  (msg_role msg = None -> role built = "user")
  /\ (forall r : string, msg_role msg = Some r -> role built = r)
  /\ (msg_content msg = None -> content built = "")
  /\ (forall c : string, msg_content msg = Some c -> content built = c).
Proof.
  cbn. repeat split; intros; subst;
    repeat match goal with H : _ = _ |- _ => rewrite H end; reflexivity.
Qed.

(** C7: for an input with a messages list and no prompt, the request the
    handler builds has as many messages as the list has entries, and its
    i-th message comes from the i-th entry: the entry's role, or "user"
    when the entry has none, and the entry's content, or the empty string
    when the entry has none. *)
Theorem messages_keep_count_and_order (input_data : InputData)
  (entries : list MessageDict) :
  input_prompt input_data = None ->
  input_messages input_data = Some entries ->
  exists msgs : list ChatMessage,
    handler_messages input_data = Some msgs
    /\ messages (handler_request input_data msgs) = msgs
    /\ List.length msgs = List.length entries
    /\ forall (i : nat) (entry : MessageDict),
         nth_error entries i = Some entry ->
         exists msg : ChatMessage,
           nth_error msgs i = Some msg
           /\ (msg_role entry = None -> role msg = "user")
           /\ (forall r : string, msg_role entry = Some r -> role msg = r)
           /\ (msg_content entry = None -> content msg = "")
           /\ (forall c : string,
                 msg_content entry = Some c -> content msg = c).
Proof.
  intros Hprompt Hentries.
  unfold handler_messages. rewrite Hprompt, Hentries.
  eexists. split; [reflexivity |]. split; [reflexivity |]. split.
  - apply length_map.
  - intros i entry Hi.
    eexists. split.
    + rewrite nth_error_map, Hi. reflexivity.
    + apply entry_defaults.
Qed.

Lemma messages_keep_count_and_order_witness :
  exists msgs : list ChatMessage,
    handler_messages (messages_input two_entries) = Some msgs
    /\ List.length msgs = 2%nat
    /\ exists msg : ChatMessage,
         nth_error msgs 1 = Some msg
         /\ role msg = "user" /\ content msg = "Hello".
Proof.
  destruct (messages_keep_count_and_order (messages_input two_entries)
              two_entries eq_refl eq_refl)
    as [msgs [Hbuilt [_ [Hlength Hentry]]]].
  exists msgs. split; [exact Hbuilt |]. split; [exact Hlength |].
  destruct (Hentry 1%nat {| msg_role := None; msg_content := Some "Hello" |}
              eq_refl)
    as [msg [Hnth [Hrole [_ [_ Hcontent]]]]].
  exists msg. split; [exact Hnth |]. split.
  - exact (Hrole eq_refl).
  - exact (Hcontent "Hello" eq_refl).
Defined.

(** C8: for an input with neither a prompt nor a messages field (or an
    event with no input at all), the handler returns, as a value, the
    error envelope with the missing-field message; it makes no upstream
    call, whatever the client, and the message does not start like the
    one wrapping a failure of the relay. *)
Theorem missing_prompt_and_messages (config : Config)
  (http_client : option AsyncClient) (event : Event) (calls : list call) :
  input_prompt (get_or (input event) empty_input) = None ->
  input_messages (get_or (input event) empty_input) = None ->
  handler config http_client event calls
  = (Ok (Error missing_field_error), calls)
  /\ prefix "Handler error: " missing_field_error = false.
Proof.
  intros Hprompt Hmessages. split; [| reflexivity].
  apply handler_without_messages.
  unfold handler_messages. rewrite Hprompt, Hmessages. reflexivity.
Qed.

Lemma missing_prompt_and_messages_witness :
  handler default_config
    (Some (backend (Answered greeting) (Answered steady)))
    {| input := None |} []
  = (Ok (Error
           "Missing required field: either 'prompt' or 'messages' must be provided"),
     [])
  /\ prefix "Handler error: " missing_field_error = false.
Proof.
  exact (missing_prompt_and_messages default_config
           (Some (backend (Answered greeting) (Answered steady)))
           {| input := None |} [] eq_refl eq_refl).
Defined.

(** ** An empty messages list *)

(** C9 as stated fails: a request whose messages list is empty is not
    rejected.  The relay posts it to the backend with an empty "messages"
    array and returns the backend's answer, and the handler accepts the
    input [{"messages": []}] just the same. *)
Lemma empty_messages_are_relayed :
  messages (plain_request [] false) = []
  /\ chat_completions default_config (plain_request [] false)
       (backend (Answered greeting) (Answered steady)) [] =
     (Ok (JsonBody greeting_body),
      [Post "http://localhost:8000/v1/chat/completions"
         (gpt_oss_request default_config (plain_request [] false))
         [("Content-Type", "application/json")]])
  /\ field (gpt_oss_request default_config (plain_request [] false)) "messages"
     = Some (JArr [])
  /\ handler default_config
       (Some (backend (Answered greeting) (Answered steady)))
       {| input := Some (messages_input []) |} [] =
     (Ok (Success (JsonBody greeting_body)),
      [Post "http://localhost:8000/v1/chat/completions"
         (gpt_oss_request default_config
            (handler_request (messages_input []) []))
         [("Content-Type", "application/json")]]).
Proof. repeat split. Qed.

(** C9, amended: a request is accepted whatever the length of its messages
    list.  A buffered request whose list is empty is relayed like any
    other: the relay makes exactly one POST to the backend, whose payload
    carries an empty "messages" array; and the handler turns an input
    whose messages list is empty (and that has no prompt) into a request
    with no message rather than into an error. *)
Theorem empty_messages_are_forwarded (config : Config)
  (request : ChatCompletionRequest) (client : AsyncClient) (calls : list call) :
  messages request = [] ->
  truthy_opt (fun b : bool => b) (stream request) = false ->
  snd (chat_completions config request client calls)
  = (calls ++ [Post (completions_url config) (gpt_oss_request config request)
                 (request_headers config)])%list
  /\ field (gpt_oss_request config request) "messages" = Some (JArr [])
  /\ forall input_data : InputData,
       input_prompt input_data = None ->
       input_messages input_data = Some [] ->
       handler_messages input_data = Some [].
Proof.
  intros Hempty Hstream. split; [| split].
  - rewrite chat_completions_buffered by exact Hstream. cbv zeta.
    destruct (client_post client _ _ _) as [message | response];
      [reflexivity |].
    destruct (status_code response =? 200); [| reflexivity].
    destruct (json response); reflexivity.
  - cbn. rewrite Hempty. reflexivity.
  - intros input_data Hprompt Hmessages.
    unfold handler_messages. rewrite Hprompt, Hmessages. reflexivity.
Qed.

Lemma empty_messages_are_forwarded_witness :
  snd (chat_completions default_config (plain_request [] false)
         (backend (Answered greeting) (Answered steady)) [])
  = [Post "http://localhost:8000/v1/chat/completions"
       (gpt_oss_request default_config (plain_request [] false))
       [("Content-Type", "application/json")]]
  /\ field (gpt_oss_request default_config (plain_request [] false)) "messages"
     = Some (JArr [])
  /\ handler_messages (messages_input []) = Some [].
Proof.
  destruct (empty_messages_are_forwarded default_config (plain_request [] false)
              (backend (Answered greeting) (Answered steady)) []
              eq_refl eq_refl) as [Hposted [Hpayload Haccepted]].
  split; [exact Hposted |]. split; [exact Hpayload |].
  exact (Haccepted (messages_input []) eq_refl eq_refl).
Defined.

(** ** Prompt and messages together *)

(** C10: for an input with a prompt, the request has exactly one message,
    of role "user" and with the prompt as content, whatever the
    "messages" field holds; and the handler does the same, call for call
    and result for result, whatever that field is replaced by. *)
Theorem prompt_takes_precedence (config : Config)
  (http_client : option AsyncClient) (input_data : InputData)
  (prompt : string) (entries : option (list MessageDict)) (calls : list call) :
  input_prompt input_data = Some prompt ->
  handler_messages input_data = Some [ {| role := "user"; content := prompt |} ]
  /\ messages (handler_request input_data
                 [ {| role := "user"; content := prompt |} ])
     = [ {| role := "user"; content := prompt |} ]
  /\ handler config http_client
       {| input := Some (with_messages input_data entries) |} calls
     = handler config http_client {| input := Some input_data |} calls.
Proof.
  intros Hprompt. split; [| split].
  - unfold handler_messages. rewrite Hprompt. reflexivity.
  - reflexivity.
  - unfold handler, handler_messages. cbn. rewrite Hprompt. reflexivity.
Qed.

Lemma prompt_takes_precedence_witness :
  handler_messages both_input = Some [ {| role := "user"; content := "Hello" |} ]
  /\ messages (handler_request both_input
                 [ {| role := "user"; content := "Hello" |} ])
     = [ {| role := "user"; content := "Hello" |} ]
  /\ handler default_config
       (Some (backend (Answered greeting) (Answered steady)))
       {| input := Some (with_messages both_input None) |} []
     = handler default_config
         (Some (backend (Answered greeting) (Answered steady)))
         {| input := Some both_input |} [].
Proof.
  exact (prompt_takes_precedence default_config
           (Some (backend (Answered greeting) (Answered steady)))
           both_input "Hello" None [] eq_refl).
Defined.

(** ** Further properties of the relay *)

(** A buffered relay whose backend answers 200 with a body that decodes
    returns the decoded body as it is, after exactly one POST. *)
Theorem buffered_success_is_passed_through (config : Config)
  (request : ChatCompletionRequest) (client : AsyncClient)
  (response : Response) (body : Json) (calls : list call) :
  truthy_opt (fun b : bool => b) (stream request) = false ->
  client_post client (completions_url config) (gpt_oss_request config request)
    (request_headers config) = Answered response ->
  status_code response = 200 ->
  json response = inr body ->
  chat_completions config request client calls =
  (Ok (JsonBody body),
   (calls ++ [Post (completions_url config) (gpt_oss_request config request)
                (request_headers config)])%list).
Proof.
  intros Hstream Hpost Hstatus Hjson.
  rewrite chat_completions_buffered by exact Hstream.
  cbv zeta. rewrite Hpost, Hstatus, Hjson. reflexivity.
Qed.

Lemma buffered_success_witness :
  chat_completions default_config (plain_request [hello] false)
    (backend (Answered greeting) (Answered steady)) [] =
  (Ok (JsonBody (JArr [JInt 72; JInt 105])),
   [Post "http://localhost:8000/v1/chat/completions"
      (gpt_oss_request default_config (plain_request [hello] false))
      [("Content-Type", "application/json")]]).
Proof.
  exact (buffered_success_is_passed_through default_config
           (plain_request [hello] false)
           (backend (Answered greeting) (Answered steady))
           greeting greeting_body [] eq_refl eq_refl eq_refl eq_refl).
Defined.

Lemma buffered_upstream_error_status_witness :
  raised_status
    (fst (chat_completions default_config (plain_request [hello] false)
            (backend (Answered overloaded) (Answered overloaded_stream)) []))
  = Some 500.
Proof.
  exact (buffered_upstream_error_status default_config
           (plain_request [hello] false)
           (backend (Answered overloaded) (Answered overloaded_stream))
           overloaded [] eq_refl eq_refl eq_refl).
Defined.

(** The bearer token is sent exactly when a key is configured. *)
Theorem authorization_header_only_with_key (config : Config) :
  dict_get (request_headers config) "Content-Type" = Some "application/json"
  /\ dict_get (request_headers config) "Authorization"
     = if (GPT_OSS_API_KEY config =? "")%string
       then None
       else Some ("Bearer " ++ GPT_OSS_API_KEY config).
Proof.
  unfold request_headers, truthy_str.
  destruct (GPT_OSS_API_KEY config =? "")%string; split; reflexivity.
Qed.

(** ** Outcomes of the relay *)

(** The stream flag selects one of the two branches. *)
Lemma stream_flag_cases (request : ChatCompletionRequest) :
  stream request = Some true
  \/ truthy_opt (fun b : bool => b) (stream request) = false.
Proof.
  destruct (stream request) as [[|] |]; [left | right | right]; reflexivity.
Qed.

(** Splits a goal about a buffered relay into the outcomes of its POST:
    refused, answered 200 with a body that decodes or not, answered with
    another status. *)
Ltac buffered_outcomes Hstream :=
  rewrite chat_completions_buffered by exact Hstream; cbv zeta;
  match goal with
  | |- context [client_post ?c ?u ?p ?h] =>
      destruct (client_post c u p h) as [? | ?response];
      [| destruct (status_code response =? 200);
         [destruct (json response) |]]
  end.

(** Whatever the request and the backend, the relay either returns or
    raises an HTTPException whose status is 500 or 503: no other
    exception and no other status leaves it. *)
Theorem relay_raises_only_500_or_503 (config : Config)
  (request : ChatCompletionRequest) (client : AsyncClient) (calls : list call) :
  match fst (chat_completions config request client calls) with
  | Ok _ => True
  | Raise (HTTPException status _) => status = 500 \/ status = 503
  | Raise _ => False
  end.
Proof.
  destruct (stream_flag_cases request) as [Hstream | Hstream].
  - rewrite chat_completions_streaming by exact Hstream. exact I.
  - buffered_outcomes Hstream; cbn; auto.
Qed.

(** The relay never retries: a buffered request makes exactly one POST,
    whatever its outcome, and a streaming request makes no call before
    the relay returns; the calls made before are kept. *)
Theorem relay_makes_at_most_one_call (config : Config)
  (request : ChatCompletionRequest) (client : AsyncClient) (calls : list call) :
  snd (chat_completions config request client calls) =
  if truthy_opt (fun b : bool => b) (stream request)
  then calls
  else (calls ++ [Post (completions_url config) (gpt_oss_request config request)
                    (request_headers config)])%list.
Proof.
  destruct (stream_flag_cases request) as [Hstream | Hstream].
  - rewrite chat_completions_streaming by exact Hstream.
    rewrite Hstream. reflexivity.
  - rewrite Hstream. buffered_outcomes Hstream; reflexivity.
Qed.

(** A buffered relay whose backend answers 200 with a body that does not
    decode raises an HTTPException 500 carrying the decoder's message. *)
Theorem undecodable_body_is_500 (config : Config)
  (request : ChatCompletionRequest) (client : AsyncClient)
  (response : Response) (message : string) (calls : list call) :
  truthy_opt (fun b : bool => b) (stream request) = false ->
  client_post client (completions_url config) (gpt_oss_request config request)
    (request_headers config) = Answered response ->
  status_code response = 200 ->
  json response = inl message ->
  fst (chat_completions config request client calls)
  = Raise (HTTPException 500 ("Internal server error: " ++ message)).
Proof.
  intros Hstream Hpost Hstatus Hjson.
  rewrite chat_completions_buffered by exact Hstream.
  cbv zeta. rewrite Hpost, Hstatus, Hjson. reflexivity.
Qed.

Lemma undecodable_body_is_500_witness :
  fst (chat_completions default_config (plain_request [hello] false)
         (backend (Answered garbled) (Answered steady)) [])
  = Raise (HTTPException 500
             "Internal server error: Expecting value: line 1 column 1 (char 0)").
Proof.
  exact (undecodable_body_is_500 default_config (plain_request [hello] false)
           (backend (Answered garbled) (Answered steady)) garbled
           "Expecting value: line 1 column 1 (char 0)" []
           eq_refl eq_refl eq_refl eq_refl).
Defined.

(** ** Failures of a streamed relay *)

(** When the streaming POST fails at the connection, the relay has
    already returned its 200 response: the failure is met only when the
    body runs, outside the [try] of the relay, so the body raises the
    [RequestError] itself, not an HTTPException 503, having made the one
    call and yielded nothing. *)
Theorem stream_refused_after_200 (config : Config)
  (request : ChatCompletionRequest) (client : AsyncClient)
  (message : string) (calls : list call) :
  stream request = Some true ->
  client_stream client (completions_url config) (gpt_oss_request config request)
    (request_headers config) = Refused message ->
  exists body : Generator,
    chat_completions config request client calls =
    (Ok (StreamingResponse body 200 "text/plain"
           [("Cache-Control", "no-cache")]), calls)
    /\ forall later : list call,
         body later =
         ({| yielded := []; raised := Some (RequestError message) |},
          (later ++ [Stream (completions_url config)
                       (gpt_oss_request config request)
                       (request_headers config)])%list).
Proof.
  intros Hstream Hopen.
  eexists. split; [apply chat_completions_streaming; exact Hstream |].
  intros later. unfold generate_stream, bind, emit, await.
  rewrite Hopen. reflexivity.
Qed.

Lemma stream_refused_after_200_witness :
  exists body : Generator,
    chat_completions default_config (plain_request [hello] true) unreachable [] =
    (Ok (StreamingResponse body 200 "text/plain"
           [("Cache-Control", "no-cache")]), [])
    /\ forall later : list call,
         body later =
         ({| yielded := [];
             raised := Some (RequestError "All connection attempts failed") |},
          (later ++ [Stream "http://localhost:8000/v1/chat/completions"
                       (gpt_oss_request default_config
                          (plain_request [hello] true))
                       [("Content-Type", "application/json")]])%list).
Proof.
  exact (stream_refused_after_200 default_config (plain_request [hello] true)
           unreachable "All connection attempts failed" [] eq_refl eq_refl).
Defined.

(** Over a stream answered with 200, the generator opens the stream and
    never reads the body as a whole.  It ends without an exception when
    the body ends, and with the [RequestError] of the break when the
    connection drops, having by then yielded every chunk that arrived and
    is not empty. *)
Theorem stream_drop_ends_the_body (config : Config) (client : AsyncClient)
  (payload : Json) (headers : Headers) (response : StreamedResponse)
  (later : list call) :
  client_stream client (completions_url config) payload headers
  = Answered response ->
  stream_status_code response = 200 ->
  generate_stream config client payload headers later =
  ({| yielded := filter truthy_str (chunks response);
      raised := option_map RequestError (dropped response) |},
   (later ++ [Stream (completions_url config) payload headers])%list).
Proof.
  intros Hopen Hstatus.
  rewrite (generate_stream_200 _ _ _ _ response) by assumption.
  f_equal.
  pose proof (forward_chunks_yielded (chunks response) (dropped response)) as Hy.
  pose proof (forward_chunks_raised (chunks response) (dropped response)) as Hr.
  destruct (forward_chunks (chunks response) (dropped response)) as [ys r].
  cbn in Hy, Hr. rewrite Hy, Hr. reflexivity.
Qed.

Lemma stream_drop_ends_the_body_witness :
  generate_stream default_config
    (backend (Answered greeting) (Answered broken))
    (gpt_oss_request default_config (plain_request [hello] true))
    (request_headers default_config) [] =
  ({| yielded := ["Hel"];
      raised := Some (RequestError "peer closed connection") |},
   [Stream "http://localhost:8000/v1/chat/completions"
      (gpt_oss_request default_config (plain_request [hello] true))
      [("Content-Type", "application/json")]]).
Proof.
  exact (stream_drop_ends_the_body default_config
           (backend (Answered greeting) (Answered broken))
           (gpt_oss_request default_config (plain_request [hello] true))
           (request_headers default_config) broken [] eq_refl eq_refl).
Defined.



(** ** The handler end to end *)

(** Without an initialised client, which is how the module leaves the
    global unless the application's lifespan has run, the handler returns
    an error envelope for every event and makes no upstream call. *)
Theorem handler_without_client_never_relays (config : Config) (event : Event)
  (calls : list call) :
  exists message : string,
    handler config None event calls = (Ok (Error message), calls).
Proof.
  destruct (handler_messages (get_or (input event) empty_input))
    as [msgs |] eqn:Hmsgs.
  - exists not_initialized_error. apply (handler_without_client _ _ msgs _ Hmsgs).
  - exists missing_field_error. apply handler_without_messages, Hmsgs.
Qed.

(** No exception leaves the handler: for every event, client and backend
    it returns an envelope, having made no upstream call or exactly one
    POST to the completions URL. *)
Theorem handler_always_returns_an_envelope (config : Config)
  (http_client : option AsyncClient) (event : Event) (calls : list call) :
  exists (envelope : Envelope) (calls' : list call),
    handler config http_client event calls = (Ok envelope, calls')
    /\ (calls' = calls
        \/ exists payload : Json,
             calls' = (calls ++ [Post (completions_url config) payload
                                   (request_headers config)])%list).
Proof.
  destruct (handler_messages (get_or (input event) empty_input))
    as [msgs |] eqn:Hmsgs.
  - destruct http_client as [client |].
    + rewrite (handler_relays _ _ _ msgs _ Hmsgs).
      destruct (stream_flag_cases
                  (handler_request (get_or (input event) empty_input) msgs))
        as [Hstream | Hstream].
      * rewrite chat_completions_streaming by exact Hstream.
        eexists. eexists. split; [reflexivity | left; reflexivity].
      * buffered_outcomes Hstream;
          (eexists; eexists; split;
           [reflexivity | right; eexists; reflexivity]).
    + rewrite (handler_without_client _ _ msgs _ Hmsgs).
      eexists. eexists. split; [reflexivity | left; reflexivity].
  - rewrite (handler_without_messages _ _ _ _ Hmsgs).
    eexists. eexists. split; [reflexivity | left; reflexivity].
Qed.

(** For an input that holds only a prompt, the handler with an
    initialised client makes exactly one POST, whose payload is fixed by
    the prompt and the configuration: one user message with the prompt,
    the model "gpt-oss-120b", the configured max_tokens and temperature,
    top_p 1.0, both penalties 0.0 and stream false. *)
Theorem handler_prompt_payload (config : Config) (client : AsyncClient)
  (prompt : string) (calls : list call) :
  snd (handler config (Some client)
         {| input := Some (prompt_input prompt None) |} calls)
  = (calls ++ [Post (completions_url config) (prompt_payload config prompt)
                 (request_headers config)])%list.
Proof.
  rewrite (handler_relays _ _ _ [ {| role := "user"; content := prompt |} ])
    by reflexivity.
  assert (Hstream : truthy_opt (fun b : bool => b)
                      (stream (handler_request
                                 (get_or (input {| input := Some (prompt_input prompt None) |})
                                    empty_input)
                                 [ {| role := "user"; content := prompt |} ]))
                    = false) by reflexivity.
  buffered_outcomes Hstream; reflexivity.
Qed.

(** When the backend answers the handler's buffered request with 200 and
    a body that decodes, the envelope is the success envelope around that
    body, unchanged. *)
Theorem handler_success_envelope (config : Config) (client : AsyncClient)
  (event : Event) (msgs : list ChatMessage) (response : Response)
  (body : Json) (calls : list call) :
  handler_messages (get_or (input event) empty_input) = Some msgs ->
  truthy_opt (fun b : bool => b)
    (stream (handler_request (get_or (input event) empty_input) msgs)) = false ->
  client_post client (completions_url config)
    (gpt_oss_request config
       (handler_request (get_or (input event) empty_input) msgs))
    (request_headers config) = Answered response ->
  status_code response = 200 ->
  json response = inr body ->
  fst (handler config (Some client) event calls) = Ok (Success (JsonBody body)).
Proof.
  intros Hmsgs Hstream Hpost Hstatus Hjson.
  rewrite (handler_relays _ _ _ msgs _ Hmsgs).
  rewrite chat_completions_buffered by exact Hstream.
  cbv zeta. rewrite Hpost, Hstatus, Hjson. reflexivity.
Qed.

Lemma handler_success_envelope_witness :
  fst (handler default_config
         (Some (backend (Answered greeting) (Answered steady)))
         {| input := Some (prompt_input "Hello" None) |} [])
  = Ok (Success (JsonBody (JArr [JInt 72; JInt 105]))).
Proof.
  exact (handler_success_envelope default_config
           (backend (Answered greeting) (Answered steady))
           {| input := Some (prompt_input "Hello" None) |}
           [ {| role := "user"; content := "Hello" |} ] greeting greeting_body []
           eq_refl eq_refl eq_refl eq_refl eq_refl).
Defined.

(** When the backend answers the handler's buffered request with another
    status than 200, the envelope is an error envelope whose message
    wraps the relay's 500 and, inside it, the upstream status and body. *)
Theorem handler_wraps_upstream_error (config : Config) (client : AsyncClient)
  (event : Event) (msgs : list ChatMessage) (response : Response)
  (calls : list call) :
  handler_messages (get_or (input event) empty_input) = Some msgs ->
  truthy_opt (fun b : bool => b)
    (stream (handler_request (get_or (input event) empty_input) msgs)) = false ->
  client_post client (completions_url config)
    (gpt_oss_request config
       (handler_request (get_or (input event) empty_input) msgs))
    (request_headers config) = Answered response ->
  (status_code response =? 200) = false ->
  fst (handler config (Some client) event calls)
  = Ok (Error ("Handler error: 500: Internal server error: "
               ++ str_int (status_code response)
               ++ ": GPT-OSS API error: " ++ text response)).
Proof.
  intros Hmsgs Hstream Hpost Hstatus.
  rewrite (handler_relays _ _ _ msgs _ Hmsgs).
  rewrite chat_completions_buffered by exact Hstream.
  cbv zeta. rewrite Hpost, Hstatus. reflexivity.
Qed.

Lemma handler_wraps_upstream_error_witness :
  fst (handler default_config
         (Some (backend (Answered overloaded) (Answered overloaded_stream)))
         {| input := Some (prompt_input "Hello" None) |} [])
  = Ok (Error
          "Handler error: 500: Internal server error: 503: GPT-OSS API error: overloaded").
Proof.
  exact (handler_wraps_upstream_error default_config
           (backend (Answered overloaded) (Answered overloaded_stream))
           {| input := Some (prompt_input "Hello" None) |}
           [ {| role := "user"; content := "Hello" |} ] overloaded []
           eq_refl eq_refl eq_refl eq_refl).
Defined.

(** When the handler's buffered POST fails at the connection, the
    envelope is an error envelope whose message wraps the relay's 503. *)
Theorem handler_wraps_transport_failure (config : Config)
  (client : AsyncClient) (event : Event) (msgs : list ChatMessage)
  (message : string) (calls : list call) :
  handler_messages (get_or (input event) empty_input) = Some msgs ->
  truthy_opt (fun b : bool => b)
    (stream (handler_request (get_or (input event) empty_input) msgs)) = false ->
  client_post client (completions_url config)
    (gpt_oss_request config
       (handler_request (get_or (input event) empty_input) msgs))
    (request_headers config) = Refused message ->
  fst (handler config (Some client) event calls)
  = Ok (Error ("Handler error: 503: Failed to connect to GPT-OSS API: "
               ++ message)).
Proof.
  intros Hmsgs Hstream Hpost.
  rewrite (handler_relays _ _ _ msgs _ Hmsgs).
  rewrite chat_completions_buffered by exact Hstream.
  cbv zeta. rewrite Hpost. reflexivity.
Qed.

Lemma handler_wraps_transport_failure_witness :
  fst (handler default_config (Some unreachable)
         {| input := Some (prompt_input "Hello" None) |} [])
  = Ok (Error
          "Handler error: 503: Failed to connect to GPT-OSS API: All connection attempts failed").
Proof.
  exact (handler_wraps_transport_failure default_config unreachable
           {| input := Some (prompt_input "Hello" None) |}
           [ {| role := "user"; content := "Hello" |} ]
           "All connection attempts failed" [] eq_refl eq_refl eq_refl).
Defined.

(** ** The connection test *)

(** The test never raises and never streams: whatever the backend does,
    it returns a report after exactly one POST, whose payload asks for 50
    tokens whatever the configured default, at the configured
    temperature. *)
Theorem test_connection_makes_one_post (config : Config)
  (client : AsyncClient) (calls : list call) :
  exists report : TestReport,
    test_connection config client calls =
    (Ok report,
     (calls ++ [Post (completions_url config)
                  (gpt_oss_request config test_request)
                  (request_headers config)])%list)
    /\ field (gpt_oss_request config test_request) "max_tokens"
       = Some (JInt 50)
    /\ field (gpt_oss_request config test_request) "temperature"
       = Some (JFloat (TEMPERATURE config))
    /\ field (gpt_oss_request config test_request) "stream"
       = Some (JBool false).
Proof.
  assert (Hstream : truthy_opt (fun b : bool => b) (stream test_request) = false)
    by reflexivity.
  unfold test_connection, try_except, bind.
  buffered_outcomes Hstream;
    (eexists; split; [reflexivity | repeat split]).
Qed.

(** The test reports success exactly when the backend answered 200 with a
    body that decodes, and the report then holds that body. *)
Theorem test_connection_success_iff (config : Config) (client : AsyncClient)
  (calls : list call) (body : Json) :
  fst (test_connection config client calls)
  = Ok (Report "success" "Connection to GPT-OSS API is working"
          (Some (JsonBody body)))
  <-> exists response : Response,
        client_post client (completions_url config)
          (gpt_oss_request config test_request) (request_headers config)
        = Answered response
        /\ status_code response = 200
        /\ json response = inr body.
Proof.
  assert (Hstream : truthy_opt (fun b : bool => b) (stream test_request) = false)
    by reflexivity.
  unfold test_connection, try_except, bind.
  rewrite chat_completions_buffered by exact Hstream. cbv zeta.
  destruct (client_post client _ _ _) as [message | response] eqn:Hpost.
  - split; [discriminate | intros [r [Hr _]]; discriminate].
  - destruct (status_code response =? 200) eqn:Hstatus.
    + apply Z.eqb_eq in Hstatus.
      destruct (json response) as [message | decoded] eqn:Hjson.
      * split; [discriminate |].
        intros [r [Hr [_ Hbody]]]. injection Hr as <-. congruence.
      * split.
        -- intros H. injection H as ->.
           exists response. repeat split; assumption.
        -- intros [r [Hr [_ Hbody]]]. injection Hr as <-.
           cbn. congruence.
    + apply Z.eqb_neq in Hstatus. split; [discriminate |].
      intros [r [Hr [H200 _]]]. injection Hr as <-. contradiction.
Qed.

(** When the backend answers the test with another status than 200, the
    report still says that the connection failed: its message is the
    fixed text "Failed to connect to GPT-OSS API: " around the relay's
    500, which holds the upstream status and body. *)
Theorem test_connection_blames_the_connection (config : Config)
  (client : AsyncClient) (response : Response) (calls : list call) :
  client_post client (completions_url config)
    (gpt_oss_request config test_request) (request_headers config)
  = Answered response ->
  (status_code response =? 200) = false ->
  fst (test_connection config client calls)
  = Ok (Report "error"
          ("Failed to connect to GPT-OSS API: 500: Internal server error: "
           ++ str_int (status_code response)
           ++ ": GPT-OSS API error: " ++ text response)
          None).
Proof.
  intros Hpost Hstatus.
  assert (Hstream : truthy_opt (fun b : bool => b) (stream test_request) = false)
    by reflexivity.
  unfold test_connection, try_except, bind.
  rewrite chat_completions_buffered by exact Hstream.
  cbv zeta. rewrite Hpost, Hstatus. reflexivity.
Qed.

Lemma test_connection_blames_the_connection_witness :
  fst (test_connection default_config
         (backend (Answered overloaded) (Answered overloaded_stream)) [])
  = Ok (Report "error"
          "Failed to connect to GPT-OSS API: 500: Internal server error: 503: GPT-OSS API error: overloaded"
          None).
Proof.
  exact (test_connection_blames_the_connection default_config
           (backend (Answered overloaded) (Answered overloaded_stream))
           overloaded [] eq_refl eq_refl).
Defined.
